(** * Profile-based configuration of the Atlas CLI core (package [config])

    A shallow embedding of [config/config.go] and of the profile file of the
    same package (settings resolution, name validation, credentials, the HTTP
    transport decorator, document rewrite on delete and rename, host name
    resolution), followed by the properties stated about them.

    Conventions.
    - A Go [string] is a [string] of bytes.  [strings.ToLower] is modelled on
      the ASCII letters; bytes above 0x7f are left as they are.
    - A Go [any] is the inductive [any]; [Nil] is the nil interface.
    - The process-wide settings store (viper) is threaded explicitly as a
      finite map from top-level keys to values; a profile is a nested
      [Table] under its name.
    - A function that can panic or fail returns in [result]. *)

From stdpp Require Import gmap strings list fin_maps pretty sorting.
From Stdlib Require Import Ascii String.

#[local] Set Warnings "-register-all".
#[local] Open Scope string_scope.

(* ===================================================================== *)
(** ** Strings: the functions of Go's [strings] package the code calls     *)
(* ===================================================================== *)

(** [unicode.ToLower] on one byte: 'A'..'Z' are shifted by 32. *)
Definition lower_byte (c : ascii) : ascii :=
  let n := nat_of_ascii c in
  if (65 <=? n)%nat && (n <=? 90)%nat then ascii_of_nat (n + 32) else c.

(** [strings.ToLower]. *)
Fixpoint ToLower (s : string) : string :=
  match s with
  | EmptyString => EmptyString
  | String c r => String (lower_byte c) (ToLower r)
  end.

(** [strings.HasPrefix s prefix]. *)
Fixpoint HasPrefix (s prefix : string) {struct prefix} : bool :=
  match prefix, s with
  | EmptyString, _ => true
  | String _ _, EmptyString => false
  | String a p, String b r => if Ascii.eqb a b then HasPrefix r p else false
  end.

(** [strings.Contains s substr]: [substr] starts at some position of [s]. *)
Fixpoint Contains (s substr : string) : bool :=
  HasPrefix s substr ||
  match s with
  | EmptyString => false
  | String _ r => Contains r substr
  end.

(** [strings.Count s sep] for a separator of one byte, the only way the
    code calls it: the number of bytes of [s] equal to [sep]. *)
Fixpoint Count (s : string) (sep : ascii) : nat :=
  match s with
  | EmptyString => 0
  | String c r => (if Ascii.eqb c sep then 1 else 0) + Count r sep
  end.

(** [strings.Split s "."]: the fields of [s] between the dots; never empty. *)
Fixpoint SplitDot_aux (cur : string) (s : string) : list string :=
  match s with
  | EmptyString => [cur]
  | String c r =>
      if Ascii.eqb c "."%char then cur :: SplitDot_aux EmptyString r
      else SplitDot_aux (cur ++ String c EmptyString) r
  end.

Definition SplitDot (s : string) : list string := SplitDot_aux EmptyString s.

(* ===================================================================== *)
(** ** Constants of [config.go]                                            *)
(* ===================================================================== *)

Definition DefaultProfile : string := "default".
Definition projectID : string := "project_id".
Definition orgID : string := "org_id".
Definition mongoShellPath : string := "mongosh_path".
Definition service : string := "service".
Definition publicAPIKey : string := "public_api_key".
Definition privateAPIKey : string := "private_api_key".
Definition AccessTokenField : string := "access_token".
Definition RefreshTokenField : string := "refresh_token".
Definition ClientIDField : string := "client_id".
Definition OpsManagerURLField : string := "ops_manager_url".
Definition baseURL : string := "base_url".
Definition output : string := "output".
Definition skipUpdateCheck : string := "skip_update_check".
Definition TelemetryEnabledProperty : string := "telemetry_enabled".
Definition ContainerizedHostNameEnv : string := "MONGODB_ATLAS_IS_CONTAINERIZED".
Definition GitHubActionsHostNameEnv : string := "GITHUB_ACTIONS".
Definition AtlasActionHostNameEnv : string := "ATLAS_GITHUB_ACTION".
Definition NativeHostName : string := "native".
Definition DockerContainerHostName : string := "container".
Definition GitHubActionsHostName : string := "all_github_actions".
Definition AtlasActionHostName : string := "atlascli_github_action".

Definition Properties : list string :=
  [ projectID; orgID; service; publicAPIKey; privateAPIKey; output;
    OpsManagerURLField; baseURL; mongoShellPath; skipUpdateCheck;
    TelemetryEnabledProperty; AccessTokenField; RefreshTokenField ].

(** The five spellings [IsTrue] accepts, in lower case. *)
Definition truthy : list string := [ "t"; "true"; "y"; "yes"; "1" ].

(** [IsTrue]: a switch on the lowered string. *)
Definition IsTrue (s : string) : bool :=
  let l := ToLower s in
  if String.eqb l "t" then true
  else if String.eqb l "true" then true
  else if String.eqb l "y" then true
  else if String.eqb l "yes" then true
  else if String.eqb l "1" then true
  else false.

(* ===================================================================== *)
(** ** Host name resolution                                                *)
(* ===================================================================== *)

(** The process environment; [os.Getenv] gives the empty string for a
    variable that is not set. *)
Definition Getenv (env : gmap string string) (name : string) : string :=
  default "" (env !! name).

Definition envIsTrue (env : gmap string string) (name : string) : bool :=
  IsTrue (Getenv env name).

(** [appendToHostName]: the builder is the text written so far. *)
Definition appendToHostName (builder : string) (configVal : string) : string :=
  let builder := if (0 <? String.length builder)%nat then builder ++ "|" else builder in
  builder ++ configVal.

(** [isDefaultHostName]: one "-" more than "|". *)
Definition isDefaultHostName (hostname : string) : bool :=
  (Count hostname "-"%char =? Count hostname "|"%char + 1)%nat.

(** The table of [getConfigHostnameFromEnvs], in the order of the source. *)
Definition envVars : list (string * string) :=
  [ (AtlasActionHostNameEnv, AtlasActionHostName);
    (GitHubActionsHostNameEnv, GitHubActionsHostName);
    (ContainerizedHostNameEnv, DockerContainerHostName) ].

Definition getConfigHostnameFromEnvs (env : gmap string string) : string :=
  let configHostName :=
    fold_left
      (fun builder envVar =>
         if envIsTrue env (fst envVar)
         then appendToHostName builder (snd envVar)
         else appendToHostName builder "-")
      envVars "" in
  if isDefaultHostName configHostName then NativeHostName else configHostName.

(* ===================================================================== *)
(** ** Values, errors and results                                          *)
(* ===================================================================== *)

(** A Go [any] as the settings store and the TOML tree hold it.  [Nil] is
    the nil interface, [Table] a nested [map[string]any] (a profile's
    section), [Opaque] a value of any other dynamic type (a struct, a
    channel, ...), which has no TOML form. *)
Inductive any : Type :=
| Nil
| Bool (b : bool)
| Str (s : string)
| Int (z : Z)
| Table (m : gmap string any)
| Opaque (tag : nat).

(** Go errors.  [Errorf_w e q] is [fmt.Errorf("%w: %q", e, q)]. *)
Inductive error : Type :=
| ErrProfileNameHasDots
| Errorf_w (e : error) (q : string)
| ErrTomlConvert
| ErrTomlKey (msg : string)
| ErrFs (msg : string)
| ErrJwt (msg : string).

(** [errors.Is err target] for the sentinel of this package: unwraps
    [%w]. *)
Fixpoint errors_Is_NameHasDots (err : error) : bool :=
  match err with
  | ErrProfileNameHasDots => true
  | Errorf_w e _ => errors_Is_NameHasDots e
  | _ => false
  end.

(** A call that may panic (a failed type assertion). *)
Inductive result (A : Type) : Type :=
| Ok (a : A)
| Panic (msg : string).
Arguments Ok {A} a.
Arguments Panic {A} msg.

Definition bind {A B} (r : result A) (k : A -> result B) : result B :=
  match r with
  | Ok a => k a
  | Panic m => Panic m
  end.

Notation "'let*' x := r 'in' k" := (bind r (fun x => k))
  (at level 10, x name, r at level 100, k at level 200).

(* ===================================================================== *)
(** ** The settings store (viper), as far as the package calls it          *)
(* ===================================================================== *)

(** The store is the resolved top-level registry: a key is looked up as a
    whole (keys are taken as viper normalises them; dotted paths into a
    section and aliases are not modelled).  A key bound to [Nil] counts as
    not set, as in viper. *)

Definition viper_Get (st : gmap string any) (key : string) : any :=
  default Nil (st !! key).

Definition viper_IsSet (st : gmap string any) (key : string) : bool :=
  match viper_Get st key with
  | Nil => false
  | _ => true
  end.

Definition viper_Set (st : gmap string any) (key : string) (value : any)
  : gmap string any :=
  <[key := value]> st.

(** [cast.ToStringMap]: the map itself, or an empty map for anything that
    is not a map. *)
Definition ToStringMap (v : any) : gmap string any :=
  match v with
  | Table m => m
  | _ => ∅
  end.

(** [cast.ToString]: the text of a scalar; the empty string where the cast
    fails. *)
Definition ToString (v : any) : string :=
  match v with
  | Str s => s
  | Bool true => "true"
  | Bool false => "false"
  | Int z => pretty z
  | _ => ""
  end.

Definition viper_GetStringMap (st : gmap string any) (key : string)
  : gmap string any :=
  ToStringMap (viper_Get st key).

Definition viper_GetStringMapString (st : gmap string any) (key : string)
  : gmap string string :=
  ToString <$> ToStringMap (viper_Get st key).

(** [viper.AllSettings] rebuilds the nested map from the keys that hold a
    value: nil leaves, and sections left without a leaf, do not appear. *)
Fixpoint prune (v : any) : option any :=
  match v with
  | Nil => None
  | Table m =>
      let m' := omap prune m in
      if (size m' =? 0)%nat then None else Some (Table m')
  | _ => Some v
  end.

Definition viper_AllSettings (st : gmap string any) : gmap string any :=
  omap prune st.

(* ===================================================================== *)
(** ** The TOML tree (go-toml), as far as the package calls it             *)
(* ===================================================================== *)

(** A tree is the nested map it was built from; a file holds the tree whose
    text ([Tree.String]) was written to it.  Keys are addressed by
    dot-separated paths of bare segments (quoted segments are not
    modelled). *)

(** A value has a TOML form when no [Opaque] or nil value occurs in it. *)
Fixpoint convertible (v : any) : bool :=
  match v with
  | Nil | Opaque _ => false
  | Table m => map_fold (fun _ x acc => convertible x && acc) true m
  | _ => true
  end.

(** [toml.TreeFromMap]. *)
Definition TreeFromMap (m : gmap string any) : error + gmap string any :=
  if convertible (Table m) then inr m else inl ErrTomlConvert.

(** [Tree.GetPath]: nil where the path leaves the tree. *)
Fixpoint GetPath (keys : list string) (t : gmap string any) : any :=
  match keys with
  | [] => Table t
  | k :: ks =>
      match ks with
      | [] => default Nil (t !! k)
      | _ :: _ =>
          match t !! k with
          | Some (Table sub) => GetPath ks sub
          | _ => Nil
          end
      end
  end.

(** [Tree.Get]: the tree itself for the empty key. *)
Definition Tree_Get (key : string) (t : gmap string any) : any :=
  if String.eqb key "" then Table t else GetPath (SplitDot key) t.

(** [Tree.SetPath]: missing intermediate tables are created; an
    intermediate that is not a table is stepped over. *)
Fixpoint SetPath (keys : list string) (value : any) (t : gmap string any)
  : gmap string any :=
  match keys with
  | [] => t
  | k :: ks =>
      match ks with
      | [] => <[k := value]> t
      | _ :: _ =>
          match t !! k with
          | Some (Table sub) => <[k := Table (SetPath ks value sub)]> t
          | None => <[k := Table (SetPath ks value ∅)]> t
          | Some _ => SetPath ks value t
          end
      end
  end.

(** [Tree.Set]. *)
Definition Tree_Set (key : string) (value : any) (t : gmap string any)
  : gmap string any :=
  SetPath (SplitDot key) value t.

(** [Tree.DeletePath]: a path of one key is deleted where it is (a missing
    key is no error); a longer path needs a table as parent. *)
Fixpoint DeletePath (keys : list string) (t : gmap string any)
  : error + gmap string any :=
  match keys with
  | [] => inl (ErrTomlKey "no such key to delete")
  | k :: ks =>
      match ks with
      | [] => inr (delete k t)
      | _ :: _ =>
          match t !! k with
          | Some (Table sub) =>
              match DeletePath ks sub with
              | inr sub' => inr (<[k := Table sub']> t)
              | inl e => inl e
              end
          | _ => inl (ErrTomlKey "no such key to delete")
          end
      end
  end.

(** [Tree.Delete]: the key is parsed first, and the empty key is refused. *)
Definition Tree_Delete (key : string) (t : gmap string any)
  : error + gmap string any :=
  if String.eqb key "" then inl (ErrTomlKey "empty key")
  else DeletePath (SplitDot key) t.

(* ===================================================================== *)
(** ** File system, tokens, HTTP                                           *)
(* ===================================================================== *)

(** The [afero.Fs] interface, as far as [Delete] and [Rename] use it:
    [OpenFile] with [fileFlags] (create, truncate, write only) and
    [configPerm], then [WriteString] on the opened file, named here by its
    path.  [ReadFile] observes what a file holds. *)
Class Fs (F : Type) : Type := {
  OpenFile : F -> string -> error + F;
  WriteString : F -> string -> gmap string any -> option error * F;
  ReadFile : F -> string -> option (gmap string any);
  WriteString_ReadFile : forall fs path d fs',
    WriteString fs path d = (None, fs') -> ReadFile fs' path = Some d
}.

(** [afero.NewMemMapFs()]: files in memory; opening and writing never
    fail. *)
#[export] Instance MemMapFs : Fs (gmap string (gmap string any)) := {|
  OpenFile fs path := inr (<[path := ∅]> fs);
  WriteString fs path d := (None, <[path := d]> fs);
  ReadFile fs path := fs !! path;
  WriteString_ReadFile fs path d fs' H :=
    eq_ind (<[path := d]> fs) (fun x => x !! path = Some d)
      (lookup_insert_eq fs path d) fs' (f_equal snd H)
|}.

Module jwt.
(** [jwt.RegisteredClaims], the two claims the package reads;
    [ExpiresAt] is a pointer, nil when the claim is absent. *)
Record RegisteredClaims : Type := mkClaims {
  Subject : string;
  ExpiresAt : option Z
}.
End jwt.

Module auth.
(** [auth.Token]; an [Expiry] of [None] is the zero [time.Time]. *)
Record Token : Type := mkToken {
  AccessToken : string;
  RefreshToken : string;
  TokenType : string;
  Expiry : option Z
}.
End auth.

Module http.
(** [http.Request], with the header map of [http.Header]. *)
Record Request : Type := mkRequest {
  Method : string;
  URL : string;
  Header : gmap string (list string)
}.

(** [Header.Set]: the key is bound to the one value. *)
Definition Header_Set (req : Request) (key value : string) : Request :=
  mkRequest (Method req) (URL req) (<[key := [value]]> (Header req)).
End http.

(** [AuthMechanism]. *)
Inductive AuthMechanism : Type := APIKeys | OAuth | NotLoggedIn.

(* ===================================================================== *)
(** ** Profile                                                             *)
(* ===================================================================== *)

(** The struct [Profile]; [F] is the type behind the [afero.Fs] handle. *)
Record Profile (F : Type) : Type := mkProfile {
  name : string;
  configDir : string;
  fs : F;
  err : option error
}.
Arguments mkProfile {F}.
Arguments name {F}.
Arguments configDir {F}.
Arguments fs {F}.
Arguments err {F}.

(** The order of [sort.Strings]: byte-wise lexicographic. *)
Definition string_le (a b : string) : Prop := String.leb a b = true.

#[export] Instance string_le_dec a b : Decision (string_le a b) :=
  bool_eq_dec (String.leb a b) true.

(** [List]: the top-level keys that are not properties, sorted. *)
Definition List (st : gmap string any) : list string :=
  let m := viper_AllSettings st in
  let keys :=
    map_fold
      (fun k _ keys =>
         if bool_decide (k ∈ Properties) then keys else (keys ++ [k])%list)
      [] m in
  merge_sort string_le keys.

(** [Exists]. *)
Definition Exists (st : gmap string any) (name : string) : bool :=
  bool_decide (name ∈ List st).

Section profile.
Context {F : Type} `{FsF : Fs F}.

(** Collaborators outside the package: the JWT parser
    ([jwt.Parser.ParseUnverified], which takes no key and checks no
    signature), the HTTP response type, and the round trip of
    [digest.Transport] over an inner round trip. *)
Variable ParseUnverified : string -> jwt.RegisteredClaims * option error.
Variable Response : Type.
Variable digest_RoundTrip :
  string -> string -> (http.Request -> error + Response) ->
  http.Request -> error + Response.

Implicit Types (p : Profile F) (st : gmap string any).

Definition Name p : string := name p.

Definition validateName (name : string) : option error :=
  if Contains name "." then Some (Errorf_w ErrProfileNameHasDots name)
  else None.

(** [SetName] returns the error and the profile as the call leaves it. *)
Definition SetName p (name : string) : option error * Profile F :=
  match validateName name with
  | Some err => (Some err, p)
  | None => (None, mkProfile (ToLower name) (configDir p) (fs p) (err p))
  end.

(** [Set]: read the profile's section, add the key, store the section. *)
Definition Set' p (name : string) (value : any) st : gmap string any :=
  let settings := viper_GetStringMap st (Name p) in
  let settings := <[name := value]> settings in
  viper_Set st (Name p) (Table settings).

Definition SetGlobal (name : string) (value : any) st : gmap string any :=
  viper_Set st name value.

(** [viper.Get(name) != ""]: an interface differs from the empty string
    unless it holds exactly that string. *)
Definition ne_empty_string (v : any) : bool :=
  match v with
  | Str s => negb (String.eqb s "")
  | _ => true
  end.

Definition Get p (name : string) st : any :=
  if viper_IsSet st name && ne_empty_string (viper_Get st name)
  then viper_Get st name
  else
    let settings := viper_GetStringMap st (Name p) in
    default Nil (settings !! name).

(** [GetString]: the assertion [value.(string)] panics on a value that is
    neither nil nor a string. *)
Definition GetString p (name : string) st : result string :=
  match Get p name st with
  | Nil => Ok ""
  | Str s => Ok s
  | _ => Panic "interface conversion: interface {} is not string"
  end.

Definition GetBoolWithDefault p (name : string) (defaultValue : bool) st
  : bool :=
  match Get p name st with
  | Bool v => v
  | Str v => IsTrue v
  | _ => defaultValue
  end.

Definition GetBool p (name : string) st : bool :=
  GetBoolWithDefault p name false st.

Definition PublicAPIKey p st : result string := GetString p publicAPIKey st.
Definition PrivateAPIKey p st : result string := GetString p privateAPIKey st.
Definition AccessToken p st : result string := GetString p AccessTokenField st.
Definition RefreshToken p st : result string := GetString p RefreshTokenField st.

(** [AuthType]; [&&] evaluates its right operand only when the left one
    holds. *)
Definition AuthType p st : result AuthMechanism :=
  let* pub := PublicAPIKey p st in
  let* both :=
    (if negb (String.eqb pub "")
     then let* priv := PrivateAPIKey p st in Ok (negb (String.eqb priv ""))
     else Ok false) in
  if both then Ok APIKeys
  else
    let* tok := AccessToken p st in
    if negb (String.eqb tok "") then Ok OAuth else Ok NotLoggedIn.

(** [tokenClaims]: the claims and the parser's error. *)
Definition tokenClaims p st : result (jwt.RegisteredClaims * option error) :=
  let* tok := AccessToken p st in
  Ok (ParseUnverified tok).

(** [Token] returns the pair (token, error); [||] evaluates its right
    operand only when the left one fails. *)
Definition Token p st : result (option auth.Token * option error) :=
  let* a := AccessToken p st in
  let* absent :=
    (if String.eqb a "" then Ok true
     else let* r := RefreshToken p st in Ok (String.eqb r "")) in
  if absent then Ok (None, None)
  else
    let* ce := tokenClaims p st in
    match snd ce with
    | Some err => Ok (None, Some err)
    | None =>
        let e := match jwt.ExpiresAt (fst ce) with
                 | Some t => Some t
                 | None => None
                 end in
        let* a := AccessToken p st in
        let* r := RefreshToken p st in
        Ok (Some (auth.mkToken a r "Bearer" e), None)
    end.

(** The three keys whose values [Map] hides. *)
Definition secret_key (k : string) : bool :=
  String.eqb k privateAPIKey || String.eqb k AccessTokenField
  || String.eqb k RefreshTokenField.

(** [Map]: the loop over the profile's section fills a fresh map. *)
Definition Map p st : gmap string string :=
  let settings := viper_GetStringMapString st (Name p) in
  map_fold
    (fun k v profileSettings =>
       if String.eqb k privateAPIKey || String.eqb k AccessTokenField
          || String.eqb k RefreshTokenField
       then <[k := "redacted"]> profileSettings
       else <[k := v]> profileSettings)
    ∅ settings.

(** [filepath.Join] of a directory and a file name (paths taken clean). *)
Definition filepath_Join (dir file : string) : string :=
  if String.eqb dir "" then file else dir ++ "/" ++ file.

Definition Filename p : string := filepath_Join (configDir p) "config.toml".

(** The tail shared by [Delete] and [Rename]: open the file (create,
    truncate), write the text of the tree, close. *)
Definition writeDocument p (t : gmap string any) : option error * F :=
  match OpenFile (fs p) (Filename p) with
  | inl err => (Some err, fs p)
  | inr f => WriteString f (Filename p) t
  end.

(** [Delete] returns the error and the file system as the call leaves
    it. *)
Definition Delete p st : option error * F :=
  let settings := viper_AllSettings st in
  match TreeFromMap settings with
  | inl err => (Some err, fs p)
  | inr t =>
      match Tree_Delete (Name p) t with
      | inl err => (Some err, fs p)
      | inr t => writeDocument p t
      end
  end.

Definition Rename p (newProfileName : string) st : option error * F :=
  match validateName newProfileName with
  | Some err => (Some err, fs p)
  | None =>
      let configurationAfterDelete := viper_AllSettings st in
      match TreeFromMap configurationAfterDelete with
      | inl err => (Some err, fs p)
      | inr t =>
          let t := Tree_Set newProfileName (Tree_Get (Name p) t) t in
          match Tree_Delete (Name p) t with
          | inl err => (Some err, fs p)
          | inr t => writeDocument p t
          end
      end
  end.

(** An [http.RoundTripper]: one the caller supplies, the decorator of the
    digest package, or the [Transport] of this package. *)
Inductive RoundTripper : Type :=
| Impl (rt : http.Request -> error + Response)
| digest_Transport (Username Password : string) (inner : RoundTripper)
| Transport (token : string) (base : RoundTripper).

(** [RoundTrip]; for [Transport], set the header, then ask [base]. *)
Fixpoint RoundTrip (tr : RoundTripper) (req : http.Request)
  : error + Response :=
  match tr with
  | Impl rt => rt req
  | digest_Transport u pw inner =>
      digest_RoundTrip u pw (RoundTrip inner) req
  | Transport token base =>
      let req := http.Header_Set req "Authorization" ("Bearer " ++ token) in
      RoundTrip base req
  end.

Definition HttpTransport p (httpTransport : RoundTripper) st
  : result RoundTripper :=
  let* username := PublicAPIKey p st in
  let* password := PrivateAPIKey p st in
  if negb (String.eqb username "") && negb (String.eqb password "")
  then Ok (digest_Transport username password httpTransport)
  else
    let* accessToken := AccessToken p st in
    if negb (String.eqb accessToken "")
    then Ok (Transport accessToken httpTransport)
    else Ok httpTransport.

End profile.

Arguments Impl {Response} rt.
Arguments digest_Transport {Response} Username Password inner.
Arguments Transport {Response} token base.
Arguments RoundTrip {Response} digest_RoundTrip tr req.
Arguments HttpTransport {F Response} p httpTransport st.

(* ===================================================================== *)
(** ** The rest of the package: environment, typed accessors, listings     *)
(* ===================================================================== *)

Definition MongoCLIEnvPrefix : string := "MCLI".
Definition AtlasCLIEnvPrefix : string := "MONGODB_ATLAS".
Definition CloudService : string := "cloud".
Definition CloudGovService : string := "cloudgov".
Definition CLIUserTypeEnv : string := "CLI_USER_TYPE".
Definition DefaultUser : string := "default".
Definition UniversityUser : string := "university".

Definition BooleanProperties : list string :=
  [ skipUpdateCheck; TelemetryEnabledProperty ].

Definition GlobalProperties : list string :=
  [ skipUpdateCheck; TelemetryEnabledProperty; mongoShellPath ].

(** [os.LookupEnv]: the value and whether the variable is set. *)
Definition LookupEnv (env : gmap string string) (key : string)
  : option string :=
  env !! key.

(** [os.Environ]: one "name=value" text for each variable. *)
Definition Environ (env : gmap string string) : list string :=
  (fun kv => fst kv ++ "=" ++ snd kv) <$> map_to_list env.

Definition newCLIUserTypeFromEnvs (env : gmap string string) : string :=
  match LookupEnv env CLIUserTypeEnv with
  | Some value => value
  | None => DefaultUser
  end.

Definition boolEnv (env : gmap string string) (key : string) : bool :=
  match LookupEnv env key with
  | Some value => IsTrue value
  | None => false
  end.

Definition isTelemetryFeatureAllowed (env : gmap string string) : bool :=
  let doNotTrack := boolEnv env "DO_NOT_TRACK" in
  negb doNotTrack.

(** [hasMongoCLIEnvVars]: the loop returns at the first entry with the
    prefix. *)
Definition hasMongoCLIEnvVars (env : gmap string string) : bool :=
  existsb (fun v => HasPrefix v MongoCLIEnvPrefix) (Environ env).

(** [viper.GetString]: the value cast to a string. *)
Definition viper_GetString (st : gmap string any) (key : string) : string :=
  ToString (viper_Get st key).

(** [Service]: a service set at the top level is returned as it is, also
    when empty; otherwise the profile's section is read as strings. *)
Definition Service {F} (p : Profile F) (st : gmap string any) : string :=
  if viper_IsSet st service then viper_GetString st service
  else
    let settings := viper_GetStringMapString st (Name p) in
    default "" (settings !! service).

(** [IsCloud]; [p] is the default profile. *)
Definition IsCloud {F} (p : Profile F) (st : gmap string any) : bool :=
  String.eqb (Service p st) "" || String.eqb (Service p st) CloudService
  || String.eqb (Service p st) CloudGovService.

Definition SetService {F} (p : Profile F) (v : string) (st : gmap string any)
  : gmap string any :=
  Set' p service (Str v) st.

Definition SetPublicAPIKey {F} (p : Profile F) (v : string)
  (st : gmap string any) : gmap string any :=
  Set' p publicAPIKey (Str v) st.

Definition SetPrivateAPIKey {F} (p : Profile F) (v : string)
  (st : gmap string any) : gmap string any :=
  Set' p privateAPIKey (Str v) st.

Definition SetAccessToken {F} (p : Profile F) (v : string)
  (st : gmap string any) : gmap string any :=
  Set' p AccessTokenField (Str v) st.

Definition SetRefreshToken {F} (p : Profile F) (v : string)
  (st : gmap string any) : gmap string any :=
  Set' p RefreshTokenField (Str v) st.

Definition SkipUpdateCheck {F} (p : Profile F) (st : gmap string any) : bool :=
  GetBool p skipUpdateCheck st.

Definition SetSkipUpdateCheck (v : bool) (st : gmap string any)
  : gmap string any :=
  SetGlobal skipUpdateCheck (Bool v) st.

Definition IsTelemetryEnabledSet (st : gmap string any) : bool :=
  viper_IsSet st TelemetryEnabledProperty.

Definition TelemetryEnabled {F} (env : gmap string string) (p : Profile F)
  (st : gmap string any) : bool :=
  isTelemetryFeatureAllowed env
  && GetBoolWithDefault p TelemetryEnabledProperty true st.

Definition SetTelemetryEnabled (env : gmap string string) (v : bool)
  (st : gmap string any) : gmap string any :=
  if negb (isTelemetryFeatureAllowed env) then st
  else SetGlobal TelemetryEnabledProperty (Bool v) st.

(** [IsAccessSet]; [&&] reads the private key only when the public one is
    non-empty. *)
Definition IsAccessSet {F} (p : Profile F) (st : gmap string any)
  : result bool :=
  let* pub := PublicAPIKey p st in
  if negb (String.eqb pub "")
  then let* priv := PrivateAPIKey p st in Ok (negb (String.eqb priv ""))
  else Ok false.

(** [AccessTokenSubject] returns the pair (subject, error). *)
Definition AccessTokenSubject {F}
  (ParseUnverified : string -> jwt.RegisteredClaims * option error)
  (p : Profile F) (st : gmap string any) : result (string * option error) :=
  let* ce := tokenClaims ParseUnverified p st in
  match snd ce with
  | Some err => Ok ("", Some err)
  | None => Ok (jwt.Subject (fst ce), snd ce)
  end.

(** [SortedKeys]: the keys of [Map], sorted. *)
Definition SortedKeys {F} (p : Profile F) (st : gmap string any)
  : list string :=
  let config := Map p st in
  let keys := map_fold (fun k _ keys => (keys ++ [k])%list) [] config in
  merge_sort string_le keys.

(** The number of nodes of a value: the measure for induction on nested
    tables. *)
Fixpoint any_size (v : any) : nat :=
  match v with
  | Table m => S (map_fold (fun _ x acc => any_size x + acc) 0 m)
  | _ => 1
  end.

(** [HttpBaseURL] is [OpsManagerURL]. *)
Definition OpsManagerURL {F} (p : Profile F) (st : gmap string any)
  : result string :=
  GetString p OpsManagerURLField st.

Definition HttpBaseURL {F} (p : Profile F) (st : gmap string any)
  : result string :=
  OpsManagerURL p st.

(* ===================================================================== *)
(** * Properties                                                           *)
(* ===================================================================== *)

(** ** Strings *)

Lemma append_cons (c : ascii) (a b : string) :
  String c a ++ b = String c (a ++ b).
Proof. reflexivity. Qed.

Lemma append_nil_l (b : string) : "" ++ b = b.
Proof. reflexivity. Qed.

Lemma append_empty_r (s : string) : s ++ "" = s.
Proof.
  induction s as [|c r IH]; [done |]. by rewrite append_cons, IH.
Qed.

Lemma append_snoc (cur r : string) (c : ascii) :
  (cur ++ String c "") ++ r = cur ++ String c r.
Proof.
  induction cur as [|x cur IH]; [done |]. by rewrite !append_cons, IH.
Qed.

Lemma HasPrefix_dot (s : string) :
  HasPrefix s "." = true <-> exists r, s = "." ++ r.
Proof.
  destruct s as [|c r]; cbn [HasPrefix].
  - split; [discriminate | intros [r Hr]; discriminate].
  - destruct (Ascii.eqb_spec "."%char c) as [<- | Hne].
    + split; [intros _; exists r; reflexivity | reflexivity].
    + split; [discriminate | intros [r' Hr']].
      rewrite append_cons, append_nil_l in Hr'. congruence.
Qed.

(** A name contains "." exactly when a dot stands at some position of
    it. *)
Lemma Contains_dot (s : string) :
  Contains s "." = true <-> exists a b, s = a ++ "." ++ b.
Proof.
  induction s as [|c r IH].
  - cbn. split; [discriminate |].
    intros [[|x a] [b Hab]]; discriminate.
  - change (Contains (String c r) ".")
      with (HasPrefix (String c r) "." || Contains r ".").
    rewrite orb_true_iff, HasPrefix_dot, IH. split.
    + intros [[r' Hr'] | (a & b & Hab)].
      * exists "", r'. exact Hr'.
      * exists (String c a), b. by rewrite append_cons, Hab.
    + intros ([|x a] & b & Hab).
      * left. by exists b.
      * right. exists a, b. rewrite append_cons in Hab. congruence.
Qed.

Lemma Contains_dot_false (s : string) :
  Contains s "." = false <-> forall a b, s <> a ++ "." ++ b.
Proof.
  rewrite <- not_true_iff_false, Contains_dot. split.
  - intros H a b Hab. apply H. by exists a, b.
  - intros H (a & b & Hab). by apply (H a b).
Qed.

(** A name without a dot is a path of one segment. *)
Lemma SplitDot_aux_no_dot (s cur : string) :
  Contains s "." = false -> SplitDot_aux cur s = [cur ++ s].
Proof.
  revert cur. induction s as [|c r IH]; intros cur H.
  - cbn. by rewrite append_empty_r.
  - change (Contains (String c r) ".")
      with (HasPrefix (String c r) "." || Contains r ".") in H.
    apply orb_false_iff in H as [Hp Hr]. cbn [HasPrefix] in Hp.
    cbn [SplitDot_aux]. rewrite Ascii.eqb_sym.
    destruct (Ascii.eqb "." c); [discriminate |].
    rewrite IH by done. by rewrite append_snoc.
Qed.

Lemma SplitDot_no_dot (s : string) :
  Contains s "." = false -> SplitDot s = [s].
Proof. intros H. unfold SplitDot. by rewrite SplitDot_aux_no_dot. Qed.

(** [IsTrue] accepts exactly the strings whose lower-case form is one of
    the five spellings. *)
Lemma IsTrue_truthy (s : string) : IsTrue s = bool_decide (ToLower s ∈ truthy).
Proof.
  unfold IsTrue, truthy. cbv zeta.
  destruct (String.eqb_spec (ToLower s) "t") as [-> | H1]; [done |].
  destruct (String.eqb_spec (ToLower s) "true") as [-> | H2]; [done |].
  destruct (String.eqb_spec (ToLower s) "y") as [-> | H3]; [done |].
  destruct (String.eqb_spec (ToLower s) "yes") as [-> | H4]; [done |].
  destruct (String.eqb_spec (ToLower s) "1") as [-> | H5]; [done |].
  symmetry. apply bool_decide_eq_false.
  rewrite !elem_of_cons, elem_of_nil. tauto.
Qed.

(** ** Host name resolution *)

(** C7. With none of the three flags truthy the resolved host name is
    "native"; with the containerized flag alone truthy it is the "|"-joined
    text with the container label in the third slot and "-" in the other
    two, which is not "native". *)
Theorem getConfigHostnameFromEnvs_native_or_container
    (env : gmap string string) :
  envIsTrue env AtlasActionHostNameEnv = false ->
  envIsTrue env GitHubActionsHostNameEnv = false ->
  (envIsTrue env ContainerizedHostNameEnv = false ->
   getConfigHostnameFromEnvs env = "native")
  /\ (envIsTrue env ContainerizedHostNameEnv = true ->
      getConfigHostnameFromEnvs env
        = String.concat "|" ["-"; "-"; DockerContainerHostName]
      /\ getConfigHostnameFromEnvs env <> "native").
Proof.
  intros Ha Hg. unfold getConfigHostnameFromEnvs, envVars.
  cbn [fold_left fst snd]. rewrite Ha, Hg.
  split; intros Hc; rewrite Hc; [reflexivity | split; [reflexivity | discriminate]].
Qed.

Lemma getConfigHostnameFromEnvs_native_or_container_witness :
  getConfigHostnameFromEnvs ∅ = "native"
  /\ getConfigHostnameFromEnvs {[ ContainerizedHostNameEnv := "true" ]}
     = "-|-|container".
Proof.
  split.
  - apply (getConfigHostnameFromEnvs_native_or_container ∅);
      vm_compute; reflexivity.
  - apply (getConfigHostnameFromEnvs_native_or_container
             {[ ContainerizedHostNameEnv := "true" ]});
      vm_compute; reflexivity.
Defined.

(** ** Settings resolution *)

Lemma Get_global {F} (p : Profile F) name (st : gmap string any) v :
  st !! name = Some v -> v <> Nil -> v <> Str "" -> Get p name st = v.
Proof.
  intros Hv Hnil Hemp. unfold Get, viper_IsSet, viper_Get. rewrite Hv. cbn.
  destruct v as [| b | s | z | m | n]; try done.
  cbn. destruct (String.eqb_spec s ""); [congruence | done].
Qed.

Lemma Get_profile {F} (p : Profile F) name (st : gmap string any) :
  st !! name = None \/ st !! name = Some Nil \/ st !! name = Some (Str "") ->
  Get p name st = default Nil (viper_GetStringMap st (Name p) !! name).
Proof.
  unfold Get, viper_IsSet, viper_Get. by intros [-> | [-> | ->]].
Qed.



(** C1, as the code has it.  [GetBoolWithDefault] returns the native value
    of a boolean; for a string it returns whether the string, in lower
    case, is one of "t", "true", "y", "yes", "1" (so [false] for any other
    string, whatever the default); for an unset key or a value of another
    type it returns the caller's default.  [GetBool] is the same with the
    default [false], so that every other string and an unset key give the
    default there. *)
Theorem GetBoolWithDefault_cases {F} (p : Profile F) (name : string)
    (defaultValue : bool) (st : gmap string any) :
  (forall b, Get p name st = Bool b ->
     GetBoolWithDefault p name defaultValue st = b)
  /\ (forall s, Get p name st = Str s ->
     GetBoolWithDefault p name defaultValue st
       = bool_decide (ToLower s ∈ truthy))
  /\ (Get p name st = Nil ->
     GetBoolWithDefault p name defaultValue st = defaultValue)
  /\ ((forall b, Get p name st <> Bool b) ->
      (forall s, Get p name st <> Str s) ->
     GetBoolWithDefault p name defaultValue st = defaultValue)
  /\ GetBool p name st = GetBoolWithDefault p name false st
  /\ (forall s, Get p name st = Str s -> ToLower s ∉ truthy ->
     GetBool p name st = false).
Proof.
  unfold GetBool, GetBoolWithDefault. repeat split.
  - by intros b ->.
  - intros s ->. apply IsTrue_truthy.
  - by intros ->.
  - intros Hb Hs. destruct (Get p name st) as [| b | s | | |]; try done.
    + by destruct (Hb b).
    + by destruct (Hs s).
  - intros s -> Hs. rewrite IsTrue_truthy. by apply bool_decide_eq_false.
Qed.

Lemma GetBoolWithDefault_cases_witness :
  let p := mkProfile "default" "" tt None in
  let st : gmap string any :=
    {[ "default" := Table {[ "skip_update_check" := Str "YES" ]} ]} in
  GetBoolWithDefault p "skip_update_check" false st = true.
Proof.
  intros p st.
  apply (proj1 (proj2 (GetBoolWithDefault_cases p "skip_update_check" false st))
           "YES").
  vm_compute; reflexivity.
Defined.

(** C1, as stated, fails: "false" is a string outside the five spellings,
    the caller's default is [true], and the result is [false]. *)
Lemma GetBoolWithDefault_other_string_counterexample :
  let p := mkProfile "default" "" tt None in
  let st : gmap string any :=
    {[ "default" := Table {[ "telemetry_enabled" := Str "false" ]} ]} in
  Get p "telemetry_enabled" st = Str "false"
  /\ (ToLower "false" ∉ truthy)
  /\ GetBoolWithDefault p "telemetry_enabled" true st = false
  /\ GetBoolWithDefault p "telemetry_enabled" true st <> true.
Proof.
  intros p st. split; [by vm_compute |]. split; [| split].
  - unfold truthy. rewrite !elem_of_cons, elem_of_nil. cbn.
    intros [H | [H | [H | [H | [H | []]]]]]; discriminate H.
  - by vm_compute.
  - by vm_compute.
Qed.

(** ** Credentials *)

Lemma eqb_empty_false (s : string) : s <> "" -> String.eqb s "" = false.
Proof. intros H. by destruct (String.eqb_spec s ""). Qed.

(** C4. [AuthType] is API-key mode when both keys are non-empty, whatever
    the access token holds; else OAuth mode when the access token is
    non-empty; else not logged in. *)
Theorem AuthType_precedence {F} (p : Profile F) (st : gmap string any) :
  (forall pub priv,
     PublicAPIKey p st = Ok pub -> PrivateAPIKey p st = Ok priv ->
     pub <> "" -> priv <> "" ->
     AuthType p st = Ok APIKeys)
  /\ (forall pub tok,
     PublicAPIKey p st = Ok pub ->
     pub = "" \/ PrivateAPIKey p st = Ok "" ->
     AccessToken p st = Ok tok -> tok <> "" ->
     AuthType p st = Ok OAuth)
  /\ (forall pub,
     PublicAPIKey p st = Ok pub ->
     pub = "" \/ PrivateAPIKey p st = Ok "" ->
     AccessToken p st = Ok "" ->
     AuthType p st = Ok NotLoggedIn).
Proof.
  unfold AuthType. repeat split.
  - intros pub priv -> -> Hpub Hpriv. cbn.
    by rewrite !eqb_empty_false.
  - intros pub tok -> Hkeys -> Htok. cbn.
    destruct Hkeys as [-> | ->]; cbn.
    + by rewrite eqb_empty_false.
    + destruct (String.eqb pub ""); cbn; by rewrite eqb_empty_false.
  - intros pub -> Hkeys ->. cbn.
    destruct Hkeys as [-> | ->]; cbn; [done |].
    by destruct (String.eqb pub "").
Qed.

Lemma AuthType_precedence_witness :
  let p := mkProfile "default" "" tt None in
  let st : gmap string any :=
    {[ "default" := Table {[ publicAPIKey := Str "pub";
                             privateAPIKey := Str "priv";
                             AccessTokenField := Str "tok" ]} ]} in
  AuthType p st = Ok APIKeys.
Proof.
  intros p st.
  apply (proj1 (AuthType_precedence p st) "pub" "priv");
    vm_compute; (reflexivity || discriminate).
Defined.

(** C5. [Token] gives a nil token and no error when the access token is
    empty, and when the refresh token is empty (the access token being
    set or not); otherwise it parses the access token, without a key, and
    gives the parser's error, or the token of type "Bearer" with the two
    strings and the expiry claim. *)
Theorem Token_cases {F}
    (ParseUnverified : string -> jwt.RegisteredClaims * option error)
    (p : Profile F) (st : gmap string any) :
  (AccessToken p st = Ok "" ->
     Token ParseUnverified p st = Ok (None, None))
  /\ (forall a,
     AccessToken p st = Ok a -> RefreshToken p st = Ok "" ->
     Token ParseUnverified p st = Ok (None, None))
  /\ (forall a r,
     AccessToken p st = Ok a -> RefreshToken p st = Ok r ->
     a <> "" -> r <> "" ->
     Token ParseUnverified p st
       = Ok (match ParseUnverified a with
             | (_, Some err) => (None, Some err)
             | (c, None) =>
                 (Some (auth.mkToken a r "Bearer" (jwt.ExpiresAt c)), None)
             end)).
Proof.
  unfold Token, tokenClaims. repeat split.
  - by intros ->.
  - intros a -> ->. cbn. by destruct (String.eqb a "").
  - intros a r -> -> Ha Hr. cbn. rewrite !eqb_empty_false by done. cbn.
    destruct (ParseUnverified a) as [c [e|]]; cbn; [done |].
    by destruct (jwt.ExpiresAt c).
Qed.

Lemma Token_cases_witness :
  let parse := fun _ : string => (jwt.mkClaims "subject" (Some 1700000000%Z), None) in
  let p := mkProfile "default" "" tt None in
  let st : gmap string any :=
    {[ "default" := Table {[ AccessTokenField := Str "header.claims.sig" ]} ]} in
  Token parse p st = Ok (None, None).
Proof.
  intros parse p st.
  apply (proj1 (proj2 (Token_cases parse p st)) "header.claims.sig");
    vm_compute; reflexivity.
Defined.

(** ** HTTP transport *)



(** ** Redaction *)

Lemma secret_key_iff (k : string) :
  secret_key k = true
  <-> k = "private_api_key" \/ k = "access_token" \/ k = "refresh_token".
Proof.
  unfold secret_key, privateAPIKey, AccessTokenField, RefreshTokenField.
  rewrite !orb_true_iff, !String.eqb_eq. tauto.
Qed.

Lemma Map_lookup {F} (p : Profile F) (st : gmap string any) (k : string) :
  Map p st !! k
  = (fun v => if secret_key k then "redacted" else v)
      <$> viper_GetStringMapString st (Name p) !! k.
Proof.
  unfold Map. generalize (viper_GetStringMapString st (Name p)) as settings.
  intros settings. revert k.
  apply (map_fold_weak_ind
           (fun (r m : gmap string string) =>
              forall k, r !! k
                = (fun v => if secret_key k then "redacted" else v) <$> m !! k)).
  - intros k. by rewrite !lookup_empty.
  - intros i x m r Hi IH k. fold (secret_key i).
    destruct (decide (i = k)) as [-> | Hne].
    + rewrite lookup_insert_eq. cbn.
      destruct (secret_key k); by rewrite lookup_insert_eq.
    + rewrite (lookup_insert_ne m) by done.
      destruct (secret_key i); rewrite lookup_insert_ne by done; apply IH.
Qed.

(** C10. [Map] has the keys of the profile's section; under
    private_api_key, access_token and refresh_token it holds "redacted",
    under every other key the section's value; two states whose sections
    have the same keys and agree outside the three keys give the same
    map. *)
Theorem Map_redacts_secrets {F} (p : Profile F) (st : gmap string any) :
  dom (Map p st) = dom (viper_GetStringMapString st (Name p))
  /\ (forall k v,
        viper_GetStringMapString st (Name p) !! k = Some v ->
        (k = "private_api_key" \/ k = "access_token" \/ k = "refresh_token" ->
           Map p st !! k = Some "redacted")
        /\ (k <> "private_api_key" -> k <> "access_token" ->
            k <> "refresh_token" ->
           Map p st !! k = Some v))
  /\ (forall (p' : Profile F) (st' : gmap string any),
        dom (viper_GetStringMapString st' (Name p'))
          = dom (viper_GetStringMapString st (Name p)) ->
        (forall k,
           k <> "private_api_key" -> k <> "access_token" ->
           k <> "refresh_token" ->
           viper_GetStringMapString st' (Name p') !! k
             = viper_GetStringMapString st (Name p) !! k) ->
        Map p' st' = Map p st).
Proof.
  split; [| split].
  - apply set_eq. intros k. rewrite !elem_of_dom, Map_lookup.
    by rewrite fmap_is_Some.
  - intros k v Hv. rewrite Map_lookup, Hv. cbn. split.
    + intros Hk. apply secret_key_iff in Hk. by rewrite Hk.
    + intros H1 H2 H3. destruct (secret_key k) eqn:E; [| done].
      apply secret_key_iff in E. tauto.
  - intros p' st' Hdom Hagree. apply map_eq. intros k.
    rewrite !Map_lookup. destruct (secret_key k) eqn:E.
    + assert (is_Some (viper_GetStringMapString st' (Name p') !! k)
              <-> is_Some (viper_GetStringMapString st (Name p) !! k)) as Hs
        by (by rewrite <- !elem_of_dom, Hdom).
      destruct (viper_GetStringMapString st' (Name p') !! k) as [v'|] eqn:E';
        destruct (viper_GetStringMapString st (Name p) !! k) as [v|] eqn:E'';
        cbn; try done.
      * destruct Hs as [Hs _]. by destruct Hs.
      * destruct Hs as [_ Hs]. by destruct Hs.
    + rewrite Hagree; [done | | |]; intros ->; by vm_compute in E.
Qed.

Lemma Map_redacts_secrets_witness :
  let p := mkProfile "default" "" tt None in
  let section (tok : string) : gmap string any :=
    <["org_id" := Str "o1"]> (<["access_token" := Str tok]> ∅) in
  let st : gmap string any := <["default" := Table (section "secret-1")]> ∅ in
  let st' : gmap string any := <["default" := Table (section "secret-2")]> ∅ in
  Map p st !! "access_token" = Some "redacted"
  /\ Map p st !! "org_id" = Some "o1"
  /\ Map p st' = Map p st.
Proof.
  intros p section st st'. split; [| split].
  - apply (proj1 (proj1 (proj2 (Map_redacts_secrets p st))
                    "access_token" "secret-1" eq_refl)).
    right; left; reflexivity.
  - apply (proj2 (proj1 (proj2 (Map_redacts_secrets p st))
                    "org_id" "o1" eq_refl)); discriminate.
  - apply (proj2 (proj2 (Map_redacts_secrets p st)) p st').
    + vm_compute; reflexivity.
    + intros k H1 H2 H3.
      unfold viper_GetStringMapString, viper_Get, st, st', Name, section, p.
      cbn [name]. rewrite !lookup_insert_eq.
      cbn [default from_option id ToStringMap]. rewrite !lookup_fmap.
      destruct (decide ("org_id" = k)) as [<- | Hne].
      * by rewrite !lookup_insert_eq.
      * rewrite !(lookup_insert_ne _ "org_id") by done.
        by rewrite !(lookup_insert_ne _ "access_token") by done.
Defined.

(** ** The document rewritten by [Delete] and [Rename] *)

Lemma validateName_None (name : string) :
  validateName name = None <-> Contains name "." = false.
Proof. unfold validateName. by destruct (Contains name "."). Qed.

(** On a name without a dot the tree is addressed at its top level. *)
Lemma Tree_Set_no_dot (key : string) (v : any) (t : gmap string any) :
  Contains key "." = false -> Tree_Set key v t = <[key := v]> t.
Proof. intros H. unfold Tree_Set. by rewrite SplitDot_no_dot. Qed.

Lemma Tree_Get_no_dot (key : string) (t : gmap string any) :
  key <> "" -> Contains key "." = false ->
  Tree_Get key t = default Nil (t !! key).
Proof.
  intros Hne H. unfold Tree_Get. rewrite eqb_empty_false by done.
  by rewrite SplitDot_no_dot.
Qed.

Lemma Tree_Delete_no_dot (key : string) (t : gmap string any) :
  key <> "" -> Contains key "." = false ->
  Tree_Delete key t = inr (delete key t).
Proof.
  intros Hne H. unfold Tree_Delete. rewrite eqb_empty_false by done.
  by rewrite SplitDot_no_dot.
Qed.

Lemma Tree_Delete_empty (t : gmap string any) :
  Tree_Delete "" t = inl (ErrTomlKey "empty key").
Proof. reflexivity. Qed.

(** What a successful write leaves in the profile's file. *)
Lemma writeDocument_ReadFile {F} `{Fs F} (p : Profile F)
    (d : gmap string any) (fs' : F) :
  writeDocument p d = (None, fs') -> ReadFile fs' (Filename p) = Some d.
Proof.
  unfold writeDocument. destruct (OpenFile (fs p) (Filename p)) as [e | f].
  - discriminate.
  - apply WriteString_ReadFile.
Qed.

(** [Delete] on a profile with a plain, non-empty name: the document is
    the settings without the profile's key. *)
Lemma Delete_document {F} `{Fs F} (p : Profile F) (st : gmap string any) :
  Name p <> "" -> Contains (Name p) "." = false ->
  convertible (Table (viper_AllSettings st)) = true ->
  Delete p st = writeDocument p (delete (Name p) (viper_AllSettings st)).
Proof.
  intros Hne Hdot Hconv. unfold Delete, TreeFromMap. rewrite Hconv.
  by rewrite Tree_Delete_no_dot.
Qed.

Lemma Delete_success {F} `{Fs F} (p : Profile F) (st : gmap string any)
    (fs' : F) :
  Delete p st = (None, fs') ->
  Name p <> "" /\ convertible (Table (viper_AllSettings st)) = true.
Proof.
  unfold Delete, TreeFromMap.
  destruct (convertible (Table (viper_AllSettings st))); [| discriminate].
  intros Hd. split; [| done]. intros Hname. rewrite Hname in Hd.
  rewrite Tree_Delete_empty in Hd. discriminate.
Qed.

(** [Rename] to a plain name on a profile with a plain, non-empty name:
    the document has the old section under the new name, and no longer
    the old key. *)
Lemma Rename_document {F} `{Fs F} (p : Profile F) (newProfileName : string)
    (st : gmap string any) :
  Contains newProfileName "." = false ->
  Name p <> "" -> Contains (Name p) "." = false ->
  convertible (Table (viper_AllSettings st)) = true ->
  Rename p newProfileName st
  = writeDocument p
      (delete (Name p)
         (<[newProfileName := default Nil (viper_AllSettings st !! Name p)]>
            (viper_AllSettings st))).
Proof.
  intros Hnew Hne Hdot Hconv. unfold Rename, TreeFromMap.
  rewrite (proj2 (validateName_None _) Hnew), Hconv.
  rewrite Tree_Get_no_dot, Tree_Set_no_dot by done.
  by rewrite Tree_Delete_no_dot.
Qed.

Lemma Rename_success {F} `{Fs F} (p : Profile F) (newProfileName : string)
    (st : gmap string any) (fs' : F) :
  Rename p newProfileName st = (None, fs') ->
  Contains newProfileName "." = false /\ Name p <> ""
  /\ convertible (Table (viper_AllSettings st)) = true.
Proof.
  unfold Rename, TreeFromMap. intros Hr.
  destruct (validateName newProfileName) eqn:Ev; [discriminate |].
  apply validateName_None in Ev. split; [done |].
  destruct (convertible (Table (viper_AllSettings st))); [| discriminate].
  split; [| done]. intros Hname. rewrite Hname in Hr.
  rewrite Tree_Delete_empty in Hr. discriminate.
Qed.

(** The profiles [List] reports are keys of the settings. *)
Lemma List_elem_of (st : gmap string any) (k : string) :
  k ∈ List st -> is_Some (viper_AllSettings st !! k) /\ k ∉ Properties.
Proof.
  unfold List. rewrite merge_sort_Permutation.
  generalize (viper_AllSettings st) as m. intros m. revert k.
  apply (map_fold_weak_ind
           (fun (keys : list string) (m : gmap string any) =>
              forall k, k ∈ keys -> is_Some (m !! k) /\ k ∉ Properties)).
  - intros k Hk. by apply elem_of_nil in Hk.
  - intros i x m' keys Hi IH k Hk.
    assert (k ∈ keys \/ (k = i /\ i ∉ Properties)) as [Hin | [-> Hp]].
    { destruct (bool_decide (i ∈ Properties)) eqn:E; [by left |].
      apply bool_decide_eq_false in E.
      apply elem_of_app in Hk as [Hk | Hk]; [by left |].
      apply list_elem_of_singleton in Hk. by right. }
    + destruct (IH k Hin) as [Hs Hp]. split; [| done].
      destruct (decide (i = k)) as [-> | Hne].
      * rewrite lookup_insert_eq. by eexists.
      * by rewrite lookup_insert_ne.
    + split; [| done]. rewrite lookup_insert_eq. by eexists.
Qed.





(** ** Profile names *)




(* ===================================================================== *)
(** * Further properties of the package                                    *)
(* ===================================================================== *)

(** ** Writing and reading settings *)

Lemma Set_lookup_profile {F} (p : Profile F) (name : string) (v : any)
    (st : gmap string any) :
  Set' p name v st !! Name p
  = Some (Table (<[name := v]> (viper_GetStringMap st (Name p)))).
Proof. unfold Set', viper_Set. apply lookup_insert_eq. Qed.

Lemma Set_lookup_other {F} (p : Profile F) (name : string) (v : any)
    (st : gmap string any) (k : string) :
  k <> Name p -> Set' p name v st !! k = st !! k.
Proof. intros Hk. unfold Set', viper_Set. by apply lookup_insert_ne. Qed.

Lemma Set_section {F} (p : Profile F) (name : string) (v : any)
    (st : gmap string any) :
  viper_GetStringMap (Set' p name v st) (Name p)
  = <[name := v]> (viper_GetStringMap st (Name p)).
Proof.
  unfold viper_GetStringMap at 1. unfold viper_Get.
  by rewrite Set_lookup_profile.
Qed.

(** A value written with [Set] is what [Get] returns for the key, unless
    the key holds a non-empty value at the top level, which keeps
    shadowing the profile's value.  (The key is not the profile's own
    name.) *)
Theorem Set_then_Get {F} (p : Profile F) (name : string) (v : any)
    (st : gmap string any) :
  name <> Name p ->
  (st !! name = None \/ st !! name = Some Nil \/ st !! name = Some (Str "") ->
     Get p name (Set' p name v st) = v)
  /\ (forall g, st !! name = Some g -> g <> Nil -> g <> Str "" ->
     Get p name (Set' p name v st) = g).
Proof.
  intros Hne. split.
  - intros Hg. rewrite Get_profile by (by rewrite Set_lookup_other).
    by rewrite Set_section, lookup_insert_eq.
  - intros g Hg Hnil Hemp. apply Get_global; [| done | done].
    by rewrite Set_lookup_other.
Qed.

Lemma Set_then_Get_witness :
  let p := mkProfile "default" "" tt None in
  let st : gmap string any := <["output" := Str "json"]> ∅ in
  Get p "org_id" (Set' p "org_id" (Str "5e2f") st) = Str "5e2f"
  /\ Get p "output" (Set' p "output" (Str "plain") st) = Str "json".
Proof.
  intros p st. split.
  - apply (proj1 (Set_then_Get p "org_id" (Str "5e2f") st ltac:(discriminate))).
    left. vm_compute; reflexivity.
  - apply (proj2 (Set_then_Get p "output" (Str "plain") st ltac:(discriminate))
             (Str "json")); [vm_compute; reflexivity | discriminate | discriminate].
Defined.

(** [Set] on one profile and key leaves every other reading as it was: the
    other keys of the same profile, and every key of a profile with
    another name. *)
Theorem Set_leaves_other_settings {F} (p q : Profile F) (name k : string)
    (v : any) (st : gmap string any) :
  k <> Name p ->
  Name q <> Name p \/ k <> name ->
  Get q k (Set' p name v st) = Get q k st.
Proof.
  intros Hk Hother. unfold Get, viper_IsSet, viper_Get.
  rewrite (Set_lookup_other p name v st k Hk).
  destruct Hother as [Hq | Hkn].
  - unfold viper_GetStringMap, viper_Get.
    by rewrite (Set_lookup_other p name v st (Name q) Hq).
  - destruct (decide (Name q = Name p)) as [Heq | Hq].
    + rewrite Heq, Set_section. by rewrite lookup_insert_ne.
    + unfold viper_GetStringMap, viper_Get.
      by rewrite (Set_lookup_other p name v st (Name q) Hq).
Qed.

Lemma Set_leaves_other_settings_witness :
  let p := mkProfile "default" "" tt None in
  let q := mkProfile "staging" "" tt None in
  let st : gmap string any :=
    <["staging" := Table (<["org_id" := Str "s1"]> ∅)]> ∅ in
  Get q "org_id" (Set' p "org_id" (Str "d1") st) = Get q "org_id" st.
Proof.
  intros p q st.
  apply (Set_leaves_other_settings p q "org_id" "org_id" (Str "d1") st);
    [discriminate | left; discriminate].
Defined.

(** A non-empty value written with [SetGlobal] is what every profile reads
    for the key; writing nil or the empty string there shadows nothing:
    each profile reads its own value again. *)
Theorem SetGlobal_seen_by_every_profile {F} (q : Profile F) (name : string)
    (v : any) (st : gmap string any) :
  (v <> Nil -> v <> Str "" -> Get q name (SetGlobal name v st) = v)
  /\ (name <> Name q -> v = Nil \/ v = Str "" ->
      Get q name (SetGlobal name v st)
      = default Nil (viper_GetStringMap st (Name q) !! name)).
Proof.
  split.
  - intros Hnil Hemp. apply Get_global; [| done | done].
    unfold SetGlobal, viper_Set. apply lookup_insert_eq.
  - intros Hne Hv. rewrite Get_profile.
    + unfold viper_GetStringMap, viper_Get, SetGlobal, viper_Set.
      by rewrite lookup_insert_ne.
    + unfold SetGlobal, viper_Set. rewrite lookup_insert_eq.
      destruct Hv as [-> | ->]; auto.
Qed.

Lemma SetGlobal_seen_by_every_profile_witness :
  let q := mkProfile "staging" "" tt None in
  let st : gmap string any :=
    <["staging" := Table (<["output" := Str "json"]> ∅)]> ∅ in
  Get q "output" (SetGlobal "output" (Str "plain") st) = Str "plain"
  /\ Get q "output" (SetGlobal "output" (Str "") st) = Str "json".
Proof.
  intros q st. split.
  - apply (proj1 (SetGlobal_seen_by_every_profile q "output" (Str "plain") st));
      discriminate.
  - apply (proj2 (SetGlobal_seen_by_every_profile q "output" (Str "") st));
      [discriminate | by right].
Defined.


(** ** Credentials: setters, [IsAccessSet], [AuthType], the transport *)

Lemma eqb_empty_true (s : string) : String.eqb s "" = true -> s = "".
Proof. apply String.eqb_eq. Qed.

(** After both API keys are written to a profile, with no value for them at
    the top level, the accessors return what was written; when both are
    non-empty the profile counts as having access set and its
    authentication is API-key mode. *)
Theorem API_keys_set_then_read {F} (p : Profile F) (pub priv : string)
    (st : gmap string any) :
  st !! publicAPIKey = None -> st !! privateAPIKey = None ->
  Name p <> publicAPIKey -> Name p <> privateAPIKey ->
  PublicAPIKey p (SetPrivateAPIKey p priv (SetPublicAPIKey p pub st)) = Ok pub
  /\ PrivateAPIKey p (SetPrivateAPIKey p priv (SetPublicAPIKey p pub st))
     = Ok priv
  /\ (pub <> "" -> priv <> "" ->
      IsAccessSet p (SetPrivateAPIKey p priv (SetPublicAPIKey p pub st))
      = Ok true
      /\ AuthType p (SetPrivateAPIKey p priv (SetPublicAPIKey p pub st))
         = Ok APIKeys).
Proof.
  intros Hpub Hpriv Hn1 Hn2.
  assert (PublicAPIKey p (SetPrivateAPIKey p priv (SetPublicAPIKey p pub st))
          = Ok pub) as H1.
  { unfold PublicAPIKey, GetString, SetPrivateAPIKey, SetPublicAPIKey.
    rewrite Set_leaves_other_settings by (auto; right; discriminate).
    by rewrite (proj1 (Set_then_Get p publicAPIKey (Str pub) st
                         (not_eq_sym Hn1)) (or_introl Hpub)). }
  assert (PrivateAPIKey p (SetPrivateAPIKey p priv (SetPublicAPIKey p pub st))
          = Ok priv) as H2.
  { unfold PrivateAPIKey, GetString, SetPrivateAPIKey, SetPublicAPIKey.
    rewrite (proj1 (Set_then_Get p privateAPIKey (Str priv) _
                      (not_eq_sym Hn2))); [done |].
    left. by rewrite Set_lookup_other by auto. }
  split; [done |]. split; [done |]. intros Hp1 Hp2.
  unfold IsAccessSet, AuthType. rewrite H1, H2. cbn.
  by rewrite !eqb_empty_false.
Qed.

Lemma API_keys_set_then_read_witness :
  let p := mkProfile "default" "" tt None in
  let st : gmap string any := ∅ in
  AuthType p (SetPrivateAPIKey p "priv" (SetPublicAPIKey p "pub" st))
  = Ok APIKeys.
Proof.
  intros p st.
  apply (proj2 (proj2 (proj2 (API_keys_set_then_read p "pub" "priv" st
                                (lookup_empty _) (lookup_empty _)
                                ltac:(discriminate) ltac:(discriminate)))
                  ltac:(discriminate) ltac:(discriminate))).
Defined.

(** [IsAccessSet] answers true exactly when [AuthType] is API-key mode. *)
Theorem IsAccessSet_iff_APIKeys {F} (p : Profile F) (st : gmap string any) :
  IsAccessSet p st = Ok true <-> AuthType p st = Ok APIKeys.
Proof.
  unfold IsAccessSet, AuthType.
  destruct (PublicAPIKey p st) as [pub | m]; cbn; [| done].
  destruct (String.eqb pub ""); cbn.
  - destruct (AccessToken p st) as [tok | m]; cbn; [| done].
    by destruct (String.eqb tok "").
  - destruct (PrivateAPIKey p st) as [priv | m]; cbn; [| done].
    destruct (String.eqb priv ""); cbn; [| done].
    destruct (AccessToken p st) as [tok | m]; cbn; [| done].
    by destruct (String.eqb tok "").
Qed.

(** The transport [HttpTransport] builds goes with the mode [AuthType]
    reports: the digest decorator with the two keys for API-key mode, the
    bearer decorator with the access token for OAuth, the base itself when
    not logged in. *)
Theorem AuthType_HttpTransport_agree {F Response} (p : Profile F)
    (base r : RoundTripper Response) (st : gmap string any)
    (m : AuthMechanism) :
  AuthType p st = Ok m ->
  HttpTransport p base st = Ok r ->
  match m with
  | APIKeys =>
      exists u pw, PublicAPIKey p st = Ok u /\ PrivateAPIKey p st = Ok pw
                   /\ r = digest_Transport u pw base
  | OAuth => exists tok, AccessToken p st = Ok tok /\ r = Transport tok base
  | NotLoggedIn => r = base
  end.
Proof.
  unfold AuthType, HttpTransport.
  destruct (PublicAPIKey p st) as [pub | ?]; cbn; [| done].
  destruct (PrivateAPIKey p st) as [priv | ?]; cbn.
  - destruct (String.eqb pub ""), (String.eqb priv ""); cbn;
      try (destruct (AccessToken p st) as [tok | ?]; cbn; [| done];
           destruct (String.eqb tok ""); cbn; intros [= <-] [= <-];
           [done | by eexists]).
    intros [= <-] [= <-]. by eexists _, _.
  - destruct (String.eqb pub ""); cbn; done.
Qed.

Lemma AuthType_HttpTransport_agree_witness :
  let base : RoundTripper nat := Impl (fun _ => inr 200) in
  let p := mkProfile "default" "" tt None in
  let st : gmap string any :=
    <["default" := Table (<[AccessTokenField := Str "tok"]> ∅)]> ∅ in
  exists tok, AccessToken p st = Ok tok /\ Transport "tok" base = Transport tok base.
Proof.
  intros base p st.
  apply (AuthType_HttpTransport_agree p base (Transport "tok" base) st OAuth);
    vm_compute; reflexivity.
Defined.

(** [Token] never gives a token together with an error.  A token it gives
    is of type "Bearer" and carries the profile's access and refresh
    tokens, both non-empty, and the expiry claim of the access token; an
    error it gives is the parser's error on the access token. *)
Theorem Token_token_or_error {F}
    (ParseUnverified : string -> jwt.RegisteredClaims * option error)
    (p : Profile F) (st : gmap string any)
    (t : option auth.Token) (e : option error) :
  Token ParseUnverified p st = Ok (t, e) ->
  (t = None \/ e = None)
  /\ (forall tok, t = Some tok ->
        auth.TokenType tok = "Bearer"
        /\ AccessToken p st = Ok (auth.AccessToken tok)
        /\ RefreshToken p st = Ok (auth.RefreshToken tok)
        /\ auth.AccessToken tok <> "" /\ auth.RefreshToken tok <> ""
        /\ auth.Expiry tok
           = jwt.ExpiresAt (fst (ParseUnverified (auth.AccessToken tok))))
  /\ (forall err, e = Some err ->
        exists a, AccessToken p st = Ok a
                  /\ snd (ParseUnverified a) = Some err).
Proof.
  unfold Token, tokenClaims.
  destruct (AccessToken p st) as [a | ?]; cbn; [| done].
  destruct (String.eqb_spec a "") as [-> | Ha]; cbn.
  { intros [= <- <-]. split; [by left |]. split; [done | done]. }
  destruct (RefreshToken p st) as [r | ?]; cbn; [| done].
  destruct (String.eqb_spec r "") as [-> | Hr]; cbn.
  { intros [= <- <-]. split; [by left |]. split; [done | done]. }
  destruct (ParseUnverified a) as [c [err |]] eqn:Ep; cbn.
  - intros [= <- <-]. split; [by left |]. split; [done |].
    intros err' [= <-]. exists a. by rewrite Ep.
  - intros [= <- <-]. split; [by right |]. split; [| done].
    intros tok [= <-]. cbn. rewrite Ep. cbn.
    repeat split; try done. by destruct (jwt.ExpiresAt c).
Qed.

Lemma Token_token_or_error_witness :
  let parse := fun _ : string =>
    (jwt.mkClaims "subject" (Some 1700000000%Z), @None error) in
  let p := mkProfile "default" "" tt None in
  let st : gmap string any :=
    <["default" := Table (<[AccessTokenField := Str "a.b.c"]>
                            (<[RefreshTokenField := Str "r"]> ∅))]> ∅ in
  let tok := auth.mkToken "a.b.c" "r" "Bearer" (Some 1700000000%Z) in
  Token parse p st = Ok (Some tok, None)
  /\ AccessToken p st = Ok (auth.AccessToken tok).
Proof.
  intros parse p st tok.
  assert (Token parse p st = Ok (Some tok, None)) as Ht
    by (vm_compute; reflexivity).
  split; [exact Ht |].
  apply (proj1 (proj2 (Token_token_or_error parse p st (Some tok) None Ht))
           tok eq_refl).
Defined.

(** On a profile with both tokens, [AccessTokenSubject] and [Token] return
    the same error, the parser's: without one they give the subject claim
    and a token, with one the empty subject and no token. *)
Theorem AccessTokenSubject_Token_agree {F}
    (ParseUnverified : string -> jwt.RegisteredClaims * option error)
    (p : Profile F) (st : gmap string any) (a r : string) :
  AccessToken p st = Ok a -> a <> "" ->
  RefreshToken p st = Ok r -> r <> "" ->
  exists subj tok,
    AccessTokenSubject ParseUnverified p st
      = Ok (subj, snd (ParseUnverified a))
    /\ Token ParseUnverified p st = Ok (tok, snd (ParseUnverified a))
    /\ (snd (ParseUnverified a) = None ->
        subj = jwt.Subject (fst (ParseUnverified a)) /\ is_Some tok)
    /\ (is_Some (snd (ParseUnverified a)) -> subj = "" /\ tok = None).
Proof.
  intros Ha Hane Hr Hrne. unfold AccessTokenSubject, Token, tokenClaims.
  rewrite Ha, Hr. cbn. rewrite !eqb_empty_false by done. cbn.
  destruct (ParseUnverified a) as [c [err |]]; cbn.
  - eexists _, _. repeat split; done.
  - eexists _, _. repeat split; done.
Qed.

Lemma AccessTokenSubject_Token_agree_witness :
  let parse := fun _ : string =>
    (jwt.mkClaims "subject" None, Some (ErrJwt "malformed")) in
  let p := mkProfile "default" "" tt None in
  let st : gmap string any :=
    <["default" := Table (<[AccessTokenField := Str "junk"]>
                            (<[RefreshTokenField := Str "r"]> ∅))]> ∅ in
  exists subj tok,
    AccessTokenSubject parse p st = Ok (subj, Some (ErrJwt "malformed"))
    /\ Token parse p st = Ok (tok, Some (ErrJwt "malformed"))
    /\ (Some (ErrJwt "malformed") = None ->
        subj = "subject" /\ is_Some tok)
    /\ (is_Some (Some (ErrJwt "malformed")) -> subj = "" /\ tok = None).
Proof.
  intros parse p st.
  apply (AccessTokenSubject_Token_agree parse p st "junk" "r");
    (vm_compute; reflexivity) || discriminate.
Defined.

(** ** Environment *)

(** The resolved host name for every environment: "native" when no flag is
    truthy, and otherwise the three slots joined by "|", each the label of
    its flag or "-"; so the result is "native" exactly when no flag is
    truthy. *)
Theorem getConfigHostnameFromEnvs_all_cases (env : gmap string string) :
  getConfigHostnameFromEnvs env
  = (if envIsTrue env AtlasActionHostNameEnv
        || envIsTrue env GitHubActionsHostNameEnv
        || envIsTrue env ContainerizedHostNameEnv
     then String.concat "|"
            [ if envIsTrue env AtlasActionHostNameEnv
              then AtlasActionHostName else "-";
              if envIsTrue env GitHubActionsHostNameEnv
              then GitHubActionsHostName else "-";
              if envIsTrue env ContainerizedHostNameEnv
              then DockerContainerHostName else "-" ]
     else NativeHostName)
  /\ (getConfigHostnameFromEnvs env = NativeHostName
      <-> envIsTrue env AtlasActionHostNameEnv = false
          /\ envIsTrue env GitHubActionsHostNameEnv = false
          /\ envIsTrue env ContainerizedHostNameEnv = false).
Proof.
  unfold getConfigHostnameFromEnvs, envVars. cbn [fold_left fst snd].
  destruct (envIsTrue env AtlasActionHostNameEnv),
    (envIsTrue env GitHubActionsHostNameEnv),
    (envIsTrue env ContainerizedHostNameEnv);
    (split; [reflexivity |]); split;
    try discriminate; try (intros (? & ? & ?); discriminate); done.
Qed.

Lemma HasPrefix_entry (name value : string) :
  HasPrefix (name ++ "=" ++ value) MongoCLIEnvPrefix
  = HasPrefix name MongoCLIEnvPrefix.
Proof.
  unfold MongoCLIEnvPrefix.
  destruct name as [|c1 [|c2 [|c3 [|c4 r]]]];
    rewrite ?append_cons, ?append_nil_l; cbn [HasPrefix];
    repeat match goal with
           | |- context [Ascii.eqb ?a ?b] =>
               destruct (Ascii.eqb_spec a b); try discriminate; subst
           end; try reflexivity.
Qed.

(** [hasMongoCLIEnvVars] holds exactly when the name of some variable of
    the environment starts with "MCLI" (whatever follows, an underscore or
    not). *)
Theorem hasMongoCLIEnvVars_iff (env : gmap string string) :
  hasMongoCLIEnvVars env = true
  <-> exists name, is_Some (env !! name) /\ HasPrefix name "MCLI" = true.
Proof.
  unfold hasMongoCLIEnvVars, Environ. rewrite existsb_exists. split.
  - intros (entry & Hin & Hp). apply list_elem_of_In in Hin.
    apply list_elem_of_fmap in Hin as ([k v] & -> & Hkv).
    apply elem_of_map_to_list in Hkv. cbn [fst snd] in Hp.
    rewrite HasPrefix_entry in Hp. exists k. split; [by eexists | done].
  - intros (k & [v Hv] & Hp). exists (k ++ "=" ++ v). split.
    + apply list_elem_of_In, list_elem_of_fmap. exists (k, v).
      split; [done |]. by apply elem_of_map_to_list.
    + by rewrite HasPrefix_entry.
Qed.

(** ** Global booleans *)

(** With DO_NOT_TRACK truthy in the environment telemetry is off for every
    profile and every settings state, and [SetTelemetryEnabled] changes
    nothing, so that it cannot be switched on. *)
Theorem DO_NOT_TRACK_disables_telemetry {F} (env : gmap string string)
    (p : Profile F) (st : gmap string any) (v : bool) :
  boolEnv env "DO_NOT_TRACK" = true ->
  TelemetryEnabled env p st = false
  /\ SetTelemetryEnabled env v st = st
  /\ TelemetryEnabled env p (SetTelemetryEnabled env v st) = false.
Proof.
  intros Hdnt.
  unfold TelemetryEnabled, SetTelemetryEnabled, isTelemetryFeatureAllowed.
  by rewrite Hdnt.
Qed.

Lemma DO_NOT_TRACK_disables_telemetry_witness :
  let env : gmap string string := <["DO_NOT_TRACK" := "1"]> ∅ in
  let p := mkProfile "default" "" tt None in
  let st : gmap string any := <[TelemetryEnabledProperty := Bool true]> ∅ in
  TelemetryEnabled env p st = false
  /\ SetTelemetryEnabled env true st = st
  /\ TelemetryEnabled env p (SetTelemetryEnabled env true st) = false.
Proof.
  intros env p st.
  apply (DO_NOT_TRACK_disables_telemetry env p st true).
  vm_compute; reflexivity.
Defined.

(** Without DO_NOT_TRACK, the value given to [SetTelemetryEnabled] is what
    [TelemetryEnabled] returns for every profile; and telemetry is on when
    the key is set nowhere. *)
Theorem TelemetryEnabled_after_set {F} (env : gmap string string)
    (q : Profile F) (st : gmap string any) (v : bool) :
  boolEnv env "DO_NOT_TRACK" = false ->
  TelemetryEnabled env q (SetTelemetryEnabled env v st) = v
  /\ (Get q TelemetryEnabledProperty st = Nil ->
      TelemetryEnabled env q st = true).
Proof.
  intros Hdnt.
  unfold TelemetryEnabled, SetTelemetryEnabled, isTelemetryFeatureAllowed,
    GetBoolWithDefault.
  rewrite Hdnt. cbn. split.
  - rewrite (proj1 (SetGlobal_seen_by_every_profile q _ (Bool v) st));
      done.
  - by intros ->.
Qed.

Lemma TelemetryEnabled_after_set_witness :
  let env : gmap string string := <["DO_NOT_TRACK" := "0"]> ∅ in
  let q := mkProfile "staging" "" tt None in
  let st : gmap string any := ∅ in
  TelemetryEnabled env q (SetTelemetryEnabled env false st) = false
  /\ TelemetryEnabled env q st = true.
Proof.
  intros env q st.
  destruct (TelemetryEnabled_after_set env q st false
              ltac:(vm_compute; reflexivity)) as [H1 H2].
  split; [exact H1 | apply H2; vm_compute; reflexivity].
Defined.

(** The value given to [SetSkipUpdateCheck] is what [SkipUpdateCheck]
    returns for every profile; the check is not skipped when the key is set
    nowhere. *)
Theorem SkipUpdateCheck_after_set {F} (q : Profile F)
    (st : gmap string any) (v : bool) :
  SkipUpdateCheck q (SetSkipUpdateCheck v st) = v
  /\ (Get q skipUpdateCheck st = Nil -> SkipUpdateCheck q st = false).
Proof.
  unfold SkipUpdateCheck, SetSkipUpdateCheck, GetBool, GetBoolWithDefault.
  split.
  - rewrite (proj1 (SetGlobal_seen_by_every_profile q _ (Bool v) st));
      done.
  - by intros ->.
Qed.

Lemma SkipUpdateCheck_after_set_witness :
  let q := mkProfile "staging" "" tt None in
  let st : gmap string any := ∅ in
  SkipUpdateCheck q st = false.
Proof.
  intros q st.
  apply (proj2 (SkipUpdateCheck_after_set q st true)).
  vm_compute; reflexivity.
Defined.

(** ** Service *)

(** [Service] is the text of what [Get] returns for the key, except when
    the top level holds the empty string: [Get] then falls back to the
    profile's value, [Service] returns the empty string. *)
Theorem Service_and_Get {F} (p : Profile F) (st : gmap string any) :
  (viper_Get st service <> Str "" ->
     Service p st = ToString (Get p service st))
  /\ (viper_Get st service = Str "" ->
     Service p st = ""
     /\ Get p service st
        = default Nil (viper_GetStringMap st (Name p) !! service)).
Proof.
  unfold Service, Get, viper_IsSet, viper_GetString,
    viper_GetStringMapString, viper_GetStringMap.
  split.
  - intros Hne.
    destruct (viper_Get st service) as [| b | s | z | m | n] eqn:E; cbn;
      try reflexivity.
    + rewrite lookup_fmap.
      by destruct (ToStringMap (viper_Get st (Name p)) !! service).
    + destruct (String.eqb_spec s "") as [-> | ?]; [done | reflexivity].
  - by intros ->.
Qed.

Lemma Service_and_Get_witness :
  let p := mkProfile "default" "" tt None in
  let st : gmap string any :=
    <["default" := Table (<["service" := Str "cloudgov"]> ∅)]>
      (<["service" := Str ""]> ∅) in
  Service p st = "" /\ Get p service st = Str "cloudgov".
Proof.
  intros p st.
  apply (proj2 (Service_and_Get p st)). vm_compute; reflexivity.
Defined.

(** A service written with [SetService] is what [Service] returns, and
    decides [IsCloud], when no service is set at the top level. *)
Theorem Service_after_SetService {F} (p : Profile F) (v : string)
    (st : gmap string any) :
  viper_IsSet st service = false -> Name p <> service ->
  Service p (SetService p v st) = v
  /\ IsCloud p (SetService p v st)
     = bool_decide (v = "" \/ v = "cloud" \/ v = "cloudgov").
Proof.
  intros Hunset Hne.
  assert (Service p (SetService p v st) = v) as Hs.
  { unfold Service, SetService, viper_IsSet, viper_Get in *.
    rewrite Set_lookup_other by auto.
    destruct (default Nil (st !! service)); try discriminate.
    unfold viper_GetStringMapString.
    fold (viper_GetStringMap (Set' p service (Str v) st) (Name p)).
    by rewrite Set_section, lookup_fmap, lookup_insert_eq. }
  split; [done |]. unfold IsCloud. rewrite Hs.
  unfold CloudService, CloudGovService.
  destruct (String.eqb_spec v "") as [-> | H1]; [done |].
  destruct (String.eqb_spec v "cloud") as [-> | H2]; [done |].
  destruct (String.eqb_spec v "cloudgov") as [-> | H3]; [done |].
  symmetry. apply bool_decide_eq_false. tauto.
Qed.

Lemma Service_after_SetService_witness :
  let p := mkProfile "default" "" tt None in
  let st : gmap string any := ∅ in
  Service p (SetService p "cloud-manager" st) = "cloud-manager"
  /\ IsCloud p (SetService p "cloud-manager" st) = false.
Proof.
  intros p st.
  apply (Service_after_SetService p "cloud-manager" st);
    [vm_compute; reflexivity | discriminate].
Defined.

(** ** Profile names *)

Lemma lower_byte_idem (c : ascii) : lower_byte (lower_byte c) = lower_byte c.
Proof. destruct c as [[] [] [] [] [] [] [] []]; reflexivity. Qed.

Lemma lower_byte_dot (c : ascii) :
  Ascii.eqb "." (lower_byte c) = Ascii.eqb "." c.
Proof. destruct c as [[] [] [] [] [] [] [] []]; reflexivity. Qed.

Lemma ToLower_idem (s : string) : ToLower (ToLower s) = ToLower s.
Proof.
  induction s as [|c r IH]; [done |]. cbn [ToLower].
  by rewrite lower_byte_idem, IH.
Qed.

Lemma Contains_dot_ToLower (s : string) :
  Contains (ToLower s) "." = Contains s ".".
Proof.
  induction s as [|c r IH]; [done |]. cbn [ToLower].
  change (Contains (String (lower_byte c) (ToLower r)) ".")
    with (HasPrefix (String (lower_byte c) (ToLower r)) "."
          || Contains (ToLower r) ".").
  change (Contains (String c r) ".")
    with (HasPrefix (String c r) "." || Contains r ".").
  cbn [HasPrefix]. by rewrite lower_byte_dot, IH.
Qed.



(** ** Listings *)

Lemma string_le_total : Total string_le.
Proof. intros a b. unfold string_le. apply String.leb_total. Qed.

(** The keys a loop over a map appends, skipping some: each kept key once. *)
Lemma keys_fold {A} (skip : string -> bool) (m : gmap string A) :
  NoDup (map_fold (fun k _ keys => if skip k then keys else (keys ++ [k])%list)
           [] m)
  /\ forall k,
       k ∈ map_fold (fun k _ keys => if skip k then keys else (keys ++ [k])%list)
             [] m
       <-> is_Some (m !! k) /\ skip k = false.
Proof.
  apply (map_fold_weak_ind
           (fun (keys : list string) (m : gmap string A) =>
              NoDup keys
              /\ forall k, k ∈ keys <-> is_Some (m !! k) /\ skip k = false)).
  - split; [constructor |]. intros k. rewrite lookup_empty. split.
    + intros Hk. by apply elem_of_nil in Hk.
    + intros [[? ?] _]. done.
  - intros i x m' keys Hi [Hnd Hmem].
    assert (i ∉ keys) as Hfresh.
    { intros Hin. apply Hmem in Hin as [[? Hs] _]. congruence. }
    destruct (skip i) eqn:Es.
    + split; [done |]. intros k. rewrite Hmem.
      destruct (decide (i = k)) as [<- | Hne].
      * rewrite Hi, lookup_insert_eq, Es. split; intros [[? ?] ?]; done.
      * by rewrite lookup_insert_ne.
    + split.
      * apply NoDup_app. split; [done |]. split; [| apply NoDup_singleton].
        intros y Hy Hy'. apply list_elem_of_singleton in Hy'. by subst.
      * intros k. rewrite elem_of_app, list_elem_of_singleton, Hmem.
        destruct (decide (i = k)) as [<- | Hne].
        -- rewrite Hi, lookup_insert_eq. split; [| by right].
           intros _. split; [by eexists | done].
        -- rewrite lookup_insert_ne by done. split; [| tauto].
           intros [H | ->]; [done | by destruct Hne].
Qed.

(** [List] is sorted, has no key twice, and holds exactly the top-level
    keys of the settings that are not property names; [Exists] tests
    membership.  A profile named like a property is thus never listed. *)
Theorem List_sorted_members (st : gmap string any) :
  Sorted string_le (List st)
  /\ NoDup (List st)
  /\ (forall k, k ∈ List st
                <-> is_Some (viper_AllSettings st !! k) /\ k ∉ Properties)
  /\ (forall name, Exists st name = true
                   <-> is_Some (viper_AllSettings st !! name)
                       /\ name ∉ Properties).
Proof.
  assert (forall k, k ∈ List st
                    <-> is_Some (viper_AllSettings st !! k) /\ k ∉ Properties)
    as Hmem.
  { intros k. unfold List. rewrite merge_sort_Permutation.
    rewrite (proj2 (keys_fold (fun k => bool_decide (k ∈ Properties))
                      (viper_AllSettings st)) k).
    by rewrite bool_decide_eq_false. }
  split; [| split; [| split]].
  - unfold List. apply (Sorted_merge_sort string_le (Total0:=string_le_total)).
  - unfold List. rewrite merge_sort_Permutation.
    apply (keys_fold (fun k => bool_decide (k ∈ Properties))).
  - exact Hmem.
  - intros name. unfold Exists. by rewrite bool_decide_eq_true, Hmem.
Qed.

(** [SortedKeys] is sorted, has no key twice, and holds exactly the keys of
    the profile's section. *)
Theorem SortedKeys_sorted_members {F} (p : Profile F) (st : gmap string any) :
  Sorted string_le (SortedKeys p st)
  /\ NoDup (SortedKeys p st)
  /\ forall k, k ∈ SortedKeys p st
               <-> k ∈ dom (viper_GetStringMapString st (Name p)).
Proof.
  split; [| split].
  - unfold SortedKeys. apply (Sorted_merge_sort string_le (Total0:=string_le_total)).
  - unfold SortedKeys. rewrite merge_sort_Permutation.
    apply (keys_fold (fun _ => false)).
  - intros k. unfold SortedKeys. rewrite merge_sort_Permutation.
    rewrite (proj2 (keys_fold (fun _ => false) (Map p st)) k).
    rewrite elem_of_dom, Map_lookup, fmap_is_Some. tauto.
Qed.

(** ** Settings as [viper.AllSettings] reports them *)

Lemma prune_Table (m : gmap string any) :
  prune (Table m)
  = if (size (omap prune m) =? 0)%nat then None
    else Some (Table (omap prune m)).
Proof. reflexivity. Qed.

Lemma any_size_pos (v : any) : 1 <= any_size v.
Proof. destruct v; cbn; lia. Qed.

Lemma any_size_lookup (m : gmap string any) (k : string) (v : any) :
  m !! k = Some v -> any_size v < any_size (Table m).
Proof.
  intros Hk. cbn [any_size].
  rewrite (map_fold_delete_L _ _ k v m); [lia | | done].
  intros. lia.
Qed.

(** What [viper.AllSettings] keeps of a value is kept as it is when read
    again. *)
Lemma prune_idem (v v' : any) : prune v = Some v' -> prune v' = Some v'.
Proof.
  remember (any_size v) as n eqn:Hn.
  assert (any_size v <= n) as Hle by lia. clear Hn.
  revert v v' Hle. induction n as [|n IH]; intros v v' Hle Hp.
  { pose proof (any_size_pos v). lia. }
  destruct v as [| b | s | z | m | t]; try (by injection Hp as <-); [done |].
  rewrite prune_Table in Hp.
  destruct (size (omap prune m) =? 0)%nat eqn:Es; [done |].
  injection Hp as <-. rewrite prune_Table.
  assert (omap prune (omap prune m) = omap prune m) as ->.
  { apply map_eq. intros k. rewrite !lookup_omap.
    destruct (m !! k) as [x |] eqn:Ek; [| done]. cbn.
    destruct (prune x) as [y |] eqn:Ex; [| done]. cbn.
    apply (IH x y); [| done].
    pose proof (any_size_lookup m k x Ek). lia. }
  by rewrite Es.
Qed.

Lemma AllSettings_idem (st : gmap string any) :
  viper_AllSettings (viper_AllSettings st) = viper_AllSettings st.
Proof.
  unfold viper_AllSettings. apply map_eq. intros k. rewrite !lookup_omap.
  destruct (st !! k) as [x |]; [| done]. cbn.
  destruct (prune x) as [y |] eqn:Ex; [| done]. cbn. by apply prune_idem in Ex.
Qed.

Lemma AllSettings_delete (k : string) (st : gmap string any) :
  viper_AllSettings (delete k (viper_AllSettings st))
  = delete k (viper_AllSettings st).
Proof.
  unfold viper_AllSettings. apply map_eq. intros j. rewrite lookup_omap.
  destruct (decide (k = j)) as [<- | Hne].
  - by rewrite !lookup_delete_eq.
  - rewrite !lookup_delete_ne, lookup_omap by done.
    destruct (st !! j) as [x |]; [| done]. cbn.
    destruct (prune x) as [y |] eqn:Ex; [| done]. cbn.
    by apply prune_idem in Ex.
Qed.

(** ** More on [Delete] and [Rename] *)







(** [Delete] and [Rename] fail before the file is opened, and leave the
    file system as it was, when the settings hold a value with no TOML form
    or when the profile's name is empty. *)
Theorem Delete_Rename_fail_before_writing {F} `{Fs F} (p : Profile F)
    (newProfileName : string) (st : gmap string any) :
  convertible (Table (viper_AllSettings st)) = false \/ Name p = "" ->
  (exists e, Delete p st = (Some e, fs p))
  /\ (exists e, Rename p newProfileName st = (Some e, fs p)).
Proof.
  intros Hbad. unfold Delete, Rename, TreeFromMap.
  destruct (validateName newProfileName) as [e |];
    destruct (convertible (Table (viper_AllSettings st))) eqn:Ec;
    destruct Hbad as [Hc | Hn]; try discriminate;
    try rewrite Hn; try rewrite !Tree_Delete_empty;
    split; by eexists.
Qed.

Lemma Delete_Rename_fail_before_writing_witness :
  let fs0 : gmap string (gmap string any) :=
    <["/cfg/config.toml" := <["default" := Table ∅]> ∅]> ∅ in
  let p := mkProfile "default" "/cfg" fs0 None in
  let st : gmap string any :=
    <["default" := Table (<["client" := Opaque 0]> ∅)]> ∅ in
  (exists e, Delete p st = (Some e, fs0))
  /\ (exists e, Rename p "other" st = (Some e, fs0)).
Proof.
  intros fs0 p st.
  apply (Delete_Rename_fail_before_writing p "other" st).
  left. vm_compute; reflexivity.
Defined.



(** ** The bearer decorator *)




(** ** Values that are not strings *)

(** When the public API key resolves to a value that is neither nil nor a
    string, the typed accessor panics, and so do [AuthType], [IsAccessSet]
    and [HttpTransport], which read it first. *)
Theorem non_string_credential_panics {F Response} (p : Profile F)
    (st : gmap string any) (v : any) (base : RoundTripper Response) :
  Get p publicAPIKey st = v ->
  v <> Nil -> (forall s, v <> Str s) ->
  (exists m, PublicAPIKey p st = Panic m)
  /\ (exists m, AuthType p st = Panic m)
  /\ (exists m, IsAccessSet p st = Panic m)
  /\ (exists m, HttpTransport p base st = Panic m).
Proof.
  intros Hv Hnil Hstr.
  assert (PublicAPIKey p st
          = Panic "interface conversion: interface {} is not string") as Hm.
  { unfold PublicAPIKey, GetString. rewrite Hv.
    destruct v as [| b | s | z | t | n]; try reflexivity; [done |].
    by destruct (Hstr s). }
  unfold AuthType, IsAccessSet, HttpTransport. rewrite Hm. cbn.
  split; [by eexists |]. split; [by eexists |]. split; by eexists.
Qed.

Lemma non_string_credential_panics_witness :
  let base : RoundTripper nat := Impl (fun _ => inr 200) in
  let p := mkProfile "default" "" tt None in
  let st : gmap string any := Set' p publicAPIKey (Int 123) ∅ in
  (exists m, PublicAPIKey p st = Panic m)
  /\ (exists m, AuthType p st = Panic m)
  /\ (exists m, IsAccessSet p st = Panic m)
  /\ (exists m, HttpTransport p base st = Panic m).
Proof.
  intros base p st.
  apply (non_string_credential_panics p st (Int 123) base);
    [vm_compute; reflexivity | discriminate | discriminate].
Defined.
